(** * http-echo: the request-handling and logging middleware chain

    A shallow embedding of [handlers.go]: the header-injection middleware
    [withAppHeaders], the capturing response writer [metaResponseWriter] and
    the access-log middleware [httpLog], followed by the properties of the
    chain. *)

From Stdlib Require Import ZArith List Ascii String Bool Lia DecimalString.
From Stdlib.Strings Require Import Byte.
From stdpp Require Import base option strings gmap.

Local Open Scope string_scope.
Local Open Scope Z_scope.

(** ** The parts of Go's [strings] package the handlers call *)

Module Strings.

(** [strings.Index(s, substr)]: the byte index of the first occurrence of
    [substr] in [s], or [-1]. *)
Fixpoint Index (s substr : string) : Z :=
  if String.prefix substr s then 0
  else match s with
       | EmptyString => -1
       | String _ s' =>
           let i := Index s' substr in
           if i =? -1 then -1 else i + 1
       end.

(** The slice expression [s[:i]]. *)
Definition slice_to (s : string) (i : Z) : string :=
  String.substring 0 (Z.to_nat i) s.

Definition byte_is (n : N) (c : ascii) : bool := (N_of_ascii c =? n)%N.

Definition byte_in (lo hi : N) (c : ascii) : bool :=
  ((lo <=? N_of_ascii c) && (N_of_ascii c <=? hi))%N.

(** The table [asciiSpace]: tab, line feed, vertical tab, form feed,
    carriage return and space. *)
Definition asciiSpace (c : ascii) : bool :=
  byte_in 9 13 c || byte_is 32 c.

(** [unicode.IsSpace] on a two-byte UTF-8 sequence: U+0085 and U+00A0. *)
Definition space2 (c1 c2 : ascii) : bool :=
  byte_is 194 c1 && (byte_is 133 c2 || byte_is 160 c2).

(** [unicode.IsSpace] on a three-byte UTF-8 sequence: U+1680,
    U+2000..U+200A, U+2028, U+2029, U+202F, U+205F and U+3000. *)
Definition space3 (c1 c2 c3 : ascii) : bool :=
  (byte_is 225 c1 && byte_is 154 c2 && byte_is 128 c3)
  || (byte_is 226 c1 && byte_is 128 c2
      && (byte_in 128 138 c3 || byte_in 168 169 c3 || byte_is 175 c3))
  || (byte_is 226 c1 && byte_is 129 c2 && byte_is 159 c3)
  || (byte_is 227 c1 && byte_is 128 c2 && byte_is 128 c3).

(** Drops leading white space, one rune at a time; [sp2] and [sp3] say
    which two- and three-byte sequences are white space. *)
Fixpoint trim_front (sp2 : ascii -> ascii -> bool)
    (sp3 : ascii -> ascii -> ascii -> bool) (s : string) : string :=
  match s with
  | EmptyString => EmptyString
  | String c1 s1 =>
      if asciiSpace c1 then trim_front sp2 sp3 s1
      else match s1 with
           | String c2 s2 =>
               if sp2 c1 c2 then trim_front sp2 sp3 s2
               else match s2 with
                    | String c3 s3 =>
                        if sp3 c1 c2 c3 then trim_front sp2 sp3 s3 else s
                    | EmptyString => s
                    end
           | EmptyString => s
           end
  end.

Definition TrimLeft (s : string) : string := trim_front space2 space3 s.

(** Trailing white space is leading white space of the reversed string,
    with the bytes of each rune met last byte first. *)
Definition TrimRight (s : string) : string :=
  String.rev
    (trim_front (fun c2 c1 => space2 c1 c2)
                (fun c3 c2 c1 => space3 c1 c2 c3) (String.rev s)).

(** [strings.TrimSpace(s)]: [s] without its leading and trailing white
    space, as Unicode defines it. *)
Definition TrimSpace (s : string) : string := TrimRight (TrimLeft s).

End Strings.

(** ** The parts of Go's [fmt] package the handlers call *)

Module Fmt.

(** An operand of a formatting call: a string, an [int], or a value that
    implements [fmt.Stringer], carried as what its [String()] returns. *)
Inductive arg : Type :=
| Str (s : string)
| Int (n : Z)
| Stringer (s : string).

(** An [int] in base ten, as [%d] prints it. *)
Definition decimal (n : Z) : string := NilZero.string_of_int (Z.to_int n).

Definition bad_verb (c : ascii) (ty v : string) : string :=
  "%!" +:+ String c ("(" +:+ ty +:+ "=" +:+ v +:+ ")").

(** One verb applied to one operand. The verbs of the two log formats are
    [%v], [%s] and [%d]; any other pairing prints Go's bad-verb form. *)
Definition verb (c : ascii) (a : arg) : string :=
  match a with
  | Str s =>
      if (Ascii.eqb c "v" || Ascii.eqb c "s")%bool then s
      else bad_verb c "string" s
  | Int n =>
      if (Ascii.eqb c "v" || Ascii.eqb c "d")%bool then decimal n
      else bad_verb c "int" (decimal n)
  | Stringer s =>
      if (Ascii.eqb c "v" || Ascii.eqb c "s")%bool then s
      else bad_verb c "stringer" s
  end.

(** [fmt.Sprintf(format, args...)]: the format with each verb replaced by
    the next operand. *)
Fixpoint Sprintf (format : string) (args : list arg) : string :=
  match format with
  | EmptyString => EmptyString
  | String c rest =>
      if Ascii.eqb c "%" then
        match rest with
        | EmptyString => "%!(NOVERB)"
        | String v rest' =>
            if Ascii.eqb v "%" then String "%" (Sprintf rest' args)
            else match args with
                 | a :: args' => verb v a +:+ Sprintf rest' args'
                 | [] => "%!" +:+ String v ("(MISSING)" +:+ Sprintf rest' [])
                 end
        end
      else String c (Sprintf rest args)
  end.

(** [fmt.Fprintf(w, format, args...)] formats into a buffer and hands it to
    [w] in one [Write]; the sink is the list of buffers written so far. *)
Definition Fprintf (w : list string) (format : string) (args : list arg)
  : list string :=
  w ++ [Sprintf format args].

End Fmt.

(** ** The parts of Go's [net/http] package the handlers call *)

Module Http.

(** [http.Header]: a map from canonical header names to their values. The
    four names the handlers use are in canonical form already. *)
Abbreviation Header := (gmap string (list string)).

(** [h.Get(key)]: the first value stored under [key], or the empty string. *)
Definition Header_Get (h : Header) (key : string) : string :=
  match h !! key with
  | Some (v :: _) => v
  | _ => EmptyString
  end.

(** [h.Set(key, value)]: [key] now holds the single value [value]. *)
Definition Header_Set (key value : string) (h : Header) : Header :=
  <[key := [value]]> h.

(** The fields of [http.Request] the handlers read. *)
Record Request : Type := {
  Method : string;
  URL_Path : string;
  Proto : string;
  Host : string;
  RemoteAddr : string;
  Request_Header : Header
}.

(** [r.UserAgent()]. *)
Definition UserAgent (r : Request) : string :=
  Header_Get (Request_Header r) "User-Agent".

Definition StatusOK : Z := 200.

(** Go's [error]: [None] is [nil]. *)
Definition error : Type := option string.

End Http.

(** [http.ResponseWriter], the interface of the response channel. A writer
    is a value of [W]; each method returns the writer after the call.
    [Header] reads the map [Header()] returns, and [Header_store] is a store
    through that map, which Go shares by reference. *)
Class ResponseWriter (W : Type) : Type := {
  Header : W -> Http.Header;
  Header_store : Http.Header -> W -> W;
  WriteHeader : Z -> W -> W;
  Write : list byte -> W -> (Z * Http.error) * W
}.

(** How a handler ends: it returns, or it panics with a value. *)
Inductive outcome : Type :=
| Returned
| Panicked (v : string).

(** ** Handlers

    [http.HandlerFunc] is a function of a response writer and a request,
    written against the interface. It is modelled by what it does with the
    writer it is given, whichever implementation that is: touch the header
    map, send a status, write bytes and look at the result, and in the end
    return or panic. *)
Inductive Prog : Type :=
| Return
| Panic (v : string)
| HeaderPut (f : Http.Header -> Http.Header) (k : Prog)
| HeaderLook (k : Http.Header -> Prog)
| CallWriteHeader (s : Z) (k : Prog)
| CallWrite (b : list byte) (k : Z * Http.error -> Prog).

Definition HandlerFunc : Type := Http.Request -> Prog.

(** The call [h(w, r)]: [run (h r) w] is how it ends and the writer it
    leaves. *)
Fixpoint run (p : Prog) {W : Type} `{ResponseWriter W} (w : W) : outcome * W :=
  match p with
  | Return => (Returned, w)
  | Panic v => (Panicked v, w)
  | HeaderPut f k => run k (Header_store (f (Header w)) w)
  | HeaderLook k => run (k (Header w)) w
  | CallWriteHeader s k => run k (WriteHeader s w)
  | CallWrite b k => let '(res, w') := Write b w in run (k res) w'
  end.

(** [each_Write P p w]: every [Write] call that [p] makes, run from [w],
    finds the writer in a state that satisfies [P]. *)
Fixpoint each_Write {W : Type} `{ResponseWriter W} (P : W -> Prop) (p : Prog)
    (w : W) : Prop :=
  match p with
  | Return => True
  | Panic _ => True
  | HeaderPut f k => each_Write P k (Header_store (f (Header w)) w)
  | HeaderLook k => each_Write P (k (Header w)) w
  | CallWriteHeader s k => each_Write P k (WriteHeader s w)
  | CallWrite b k =>
      P w /\ let '(res, w') := Write b w in each_Write P (k res) w'
  end.

(** [silent p w]: run from [w], [p] ends without a [WriteHeader] or a [Write]
    call. *)
Fixpoint silent {W : Type} `{ResponseWriter W} (p : Prog) (w : W) : Prop :=
  match p with
  | Return => True
  | Panic _ => True
  | HeaderPut f k => silent k (Header_store (f (Header w)) w)
  | HeaderLook k => silent (k (Header w)) w
  | CallWriteHeader _ _ => False
  | CallWrite _ _ => False
  end.

(** [sends_nonzero p]: no [WriteHeader] call of [p] passes the status 0. *)
Fixpoint sends_nonzero (p : Prog) : Prop :=
  match p with
  | Return => True
  | Panic _ => True
  | HeaderPut _ k => sends_nonzero k
  | HeaderLook k => forall h, sends_nonzero (k h)
  | CallWriteHeader s k => s <> 0 /\ sends_nonzero k
  | CallWrite _ k => forall res, sends_nonzero (k res)
  end.

(** Go's [defer]: the deferred call runs when the body of the function has
    run, whether the body returned or panicked; a panic then goes on to the
    caller. [St] is the state the body works on and [Out] the state only the
    deferred call touches. *)
Definition defer {St Out : Type} (deferred : St -> Out -> Out)
    (body : St -> outcome * St) (s : St) (o : Out) : outcome * St * Out :=
  let '(res, s') := body s in
  (res, s', deferred s' o).

(** ** handlers.go *)

(** The package [version] of the repository supplies the two values. *)
Class Version : Type := {
  version_Name : string;
  version_Version : string
}.

(** The parts of Go's [time] package the log line needs. *)
Class Clock : Type := {
  Time : Type;
  Duration : Type;
  Time_Sub : Time -> Time -> Duration;
  Time_Format : Time -> string -> string;
  Duration_String : Duration -> string
}.

Definition dquote : string := String (ascii_of_N 34) EmptyString.
Definition newline : string := String (ascii_of_N 10) EmptyString.

Definition httpHeaderAppName : string := "X-App-Name".
Definition httpHeaderAppVersion : string := "X-App-Version".

Definition httpLogDateFormat : string := "2006/01/02 15:04:05".

Definition httpLogFormat : string :=
  Eval cbv in
    "%v %s %s " +:+ dquote +:+ "%s %s %s" +:+ dquote +:+ " %d %d "
      +:+ dquote +:+ "%s" +:+ dquote +:+ " %v" +:+ newline.

Definition httpLogFormatWithForward : string :=
  Eval cbv in
    "%v %s %s %s " +:+ dquote +:+ "%s %s %s" +:+ dquote +:+ " %d %d "
      +:+ dquote +:+ "%s" +:+ dquote +:+ " %v" +:+ newline.

Definition httpLogEnvForwardedFor : string := "LOG_FORWARDED_FOR".

(** [withAppHeaders] adds the application headers, sends the status [c] and
    calls [h] with the same writer and request. *)
Definition withAppHeaders `{Version} (c : Z) (h : HandlerFunc) : HandlerFunc :=
  fun r =>
    HeaderPut (Http.Header_Set httpHeaderAppName version_Name)
      (HeaderPut (Http.Header_Set httpHeaderAppVersion version_Version)
         (CallWriteHeader c
            (h r))).

(** [metaResponseWriter] saves information about the response for logging. *)
Record metaResponseWriter (W : Type) : Type := {
  writer : W;
  status : Z;
  length : Z
}.
Arguments writer {W} _.
Arguments status {W} _.
Arguments length {W} _.

Section MetaResponseWriter.

Context {W : Type} `{ResponseWriter W}.

Definition metaResponseWriter_Header (w : metaResponseWriter W) : Http.Header :=
  Header (writer w).

(** A store through the map [Header()] returns lands in the wrapped
    writer's map: the method hands out that very map. *)
Definition metaResponseWriter_Header_store (h : Http.Header)
    (w : metaResponseWriter W) : metaResponseWriter W :=
  {| writer := Header_store h (writer w);
     status := status w;
     length := length w |}.

Definition metaResponseWriter_WriteHeader (s : Z) (w : metaResponseWriter W)
  : metaResponseWriter W :=
  let w := {| writer := writer w; status := s; length := length w |} in
  {| writer := WriteHeader s (writer w);
     status := status w;
     length := length w |}.

Definition metaResponseWriter_Write (b : list byte) (w : metaResponseWriter W)
  : (Z * Http.error) * metaResponseWriter W :=
  let w :=
    if status w =? 0
    then {| writer := writer w; status := Http.StatusOK; length := length w |}
    else w in
  let w :=
    {| writer := writer w;
       status := status w;
       length := Z.of_nat (List.length b) |} in
  let '(res, inner) := Write b (writer w) in
  (res, {| writer := inner; status := status w; length := length w |}).

End MetaResponseWriter.

#[export] Instance metaResponseWriter_ResponseWriter {W : Type}
    `{ResponseWriter W} : ResponseWriter (metaResponseWriter W) := {
  Header := metaResponseWriter_Header;
  Header_store := metaResponseWriter_Header_store;
  WriteHeader := metaResponseWriter_WriteHeader;
  Write := metaResponseWriter_Write
}.

(** What the process answers to the three things one request of [httpLog]
    asks it: [time.Now()] when the handler starts, [time.Now()] when the
    deferred function runs, and [os.Getenv] there. *)
Record Env `{Clock} : Type := {
  start_time : Time;
  end_time : Time;
  Getenv : string -> string
}.

Section HttpLog.

Context `{Clock}.

(** The forwarded-address field of the log line: the [if] statement on
    [r.Header.Get("X-Forwarded-For")] in the deferred function. *)
Definition httpLog_forwardedFor (r : Http.Request) : string :=
  let forwardedFor := Http.Header_Get (Http.Request_Header r) "X-Forwarded-For" in
  if negb (String.eqb forwardedFor EmptyString) then
    let idx := Strings.Index forwardedFor "," in
    if negb (idx =? -1)
    then Strings.TrimSpace (Strings.slice_to forwardedFor idx)
    else forwardedFor
  else "-".

(** The function [httpLog] defers: it reads what the capturing writer
    holds and prints one line to [out]. *)
Definition httpLog_deferred {W : Type} (start : Time) (env : Env)
    (r : Http.Request) (mrw : metaResponseWriter W) (out : list string)
  : list string :=
  let status := status mrw in
  let length := length mrw in
  let end_ := end_time env in
  let dur := Time_Sub end_ start in
  if negb (String.eqb (Getenv env httpLogEnvForwardedFor) EmptyString) then
    let forwardedFor := httpLog_forwardedFor r in
    Fmt.Fprintf out httpLogFormatWithForward
      [Fmt.Str (Time_Format end_ httpLogDateFormat);
       Fmt.Str (Http.Host r); Fmt.Str (Http.RemoteAddr r);
       Fmt.Str forwardedFor; Fmt.Str (Http.Method r);
       Fmt.Str (Http.URL_Path r); Fmt.Str (Http.Proto r);
       Fmt.Int status; Fmt.Int length; Fmt.Str (Http.UserAgent r);
       Fmt.Stringer (Duration_String dur)]
  else
    Fmt.Fprintf out httpLogFormat
      [Fmt.Str (Time_Format end_ httpLogDateFormat);
       Fmt.Str (Http.Host r); Fmt.Str (Http.RemoteAddr r);
       Fmt.Str (Http.Method r);
       Fmt.Str (Http.URL_Path r); Fmt.Str (Http.Proto r);
       Fmt.Int status; Fmt.Int length; Fmt.Str (Http.UserAgent r);
       Fmt.Stringer (Duration_String dur)].

(** The writer [httpLog] hands to [h]: the zero value of
    [metaResponseWriter] around [w]. *)
Definition httpLog_mrw {W : Type} (w : W) : metaResponseWriter W :=
  {| writer := w; status := 0; length := 0 |}.

(** [httpLog] logs the request and the response to [out]: it wraps [w],
    defers the logging function with the start time and calls [h] on the
    wrapper. The result is how the handler ended, the capturing writer it
    left and the sink. *)
Definition httpLog (out : list string) (h : HandlerFunc) (env : Env)
    {W : Type} `{ResponseWriter W} (w : W) (r : Http.Request)
  : outcome * metaResponseWriter W * list string :=
  let mrw := httpLog_mrw w in
  defer (httpLog_deferred (start_time env) env r)
        (run (h r))
        mrw out.

End HttpLog.

(** ** A response writer to run the handlers on

    [Recorder] is a response writer that takes every call and records it.
    The first [WriteHeader] fixes the status and the header map in
    [rec_sent], whatever the code, and so does the first [Write], with status
    200, when none came before; later [WriteHeader] calls and later stores in
    the map leave [rec_sent] alone. For the status codes 200..999 this is
    what a connection of [net/http] sends to the client. It is not for the
    other codes: there [net/http] panics on a code outside 100..999 while
    nothing is sent yet, and sends the codes 100..199, 101 apart, as interim
    responses; so what a client receives is stated for [final_status] codes
    only.
    [rec_room] is how many bytes the connection still takes: a [Write] of
    more is cut short and reports an error. *)
Record Recorder : Type := {
  rec_header : Http.Header;
  rec_sent : option (Z * Http.Header);
  rec_body : list byte;
  rec_room : nat
}.

Definition Recorder_WriteHeader (s : Z) (w : Recorder) : Recorder :=
  match rec_sent w with
  | Some _ => w
  | None =>
      {| rec_header := rec_header w;
         rec_sent := Some (s, rec_header w);
         rec_body := rec_body w;
         rec_room := rec_room w |}
  end.

Definition Recorder_Write (b : list byte) (w : Recorder)
  : (Z * Http.error) * Recorder :=
  let w := Recorder_WriteHeader Http.StatusOK w in
  let n := Nat.min (List.length b) (rec_room w) in
  ((Z.of_nat n,
    if (n <? List.length b)%nat then Some "short write" else None),
   {| rec_header := rec_header w;
      rec_sent := rec_sent w;
      rec_body := rec_body w ++ firstn n b;
      rec_room := (rec_room w - n)%nat |}).

#[export] Instance Recorder_ResponseWriter : ResponseWriter Recorder := {
  Header := rec_header;
  Header_store h w :=
    {| rec_header := h;
       rec_sent := rec_sent w;
       rec_body := rec_body w;
       rec_room := rec_room w |};
  WriteHeader := Recorder_WriteHeader;
  Write := Recorder_Write
}.

(** A writer on which stores through the header map are read back. *)
Class HeaderLaw (W : Type) `{ResponseWriter W} : Prop :=
  Header_Header_store : forall (h : Http.Header) (w : W),
    Header (Header_store h w) = h.

#[export] Instance Recorder_HeaderLaw : HeaderLaw Recorder.
Proof. intros h w. reflexivity. Qed.

(** A fresh connection that takes [room] bytes. *)
Definition fresh (room : nat) : Recorder :=
  {| rec_header := ∅; rec_sent := None; rec_body := []; rec_room := room |}.

(** Values for the examples. *)
Definition sample_Version : Version :=
  {| version_Name := "http-echo"; version_Version := "1.0.0" |}.

Definition sample_Clock : Clock :=
  {| Time := Z;
     Duration := Z;
     Time_Sub := Z.sub;
     Time_Format := fun t _ => "t" +:+ Fmt.decimal t;
     Duration_String := fun d => Fmt.decimal d +:+ "ns" |}.

Definition sample_Env (forwarded : string) : @Env sample_Clock :=
  @Build_Env sample_Clock (1000 : Z) (1234 : Z)
    (fun k =>
       if String.eqb k httpLogEnvForwardedFor then forwarded else EmptyString).

Definition sample_Request (xff : option string) : Http.Request :=
  {| Http.Method := "GET";
     Http.URL_Path := "/";
     Http.Proto := "HTTP/1.1";
     Http.Host := "example.com";
     Http.RemoteAddr := "10.0.0.1:4321";
     Http.Request_Header :=
       let h : Http.Header := {[ "User-Agent" := ["test-agent"] ]} in
       match xff with
       | Some v => <["X-Forwarded-For" := [v]]> h
       | None => h
       end |}.

(** [n] bytes of body. *)
Definition body (n : nat) : list byte := repeat x61 n.

(** The echo handler: one [Write] of the body, nothing else. *)
Definition echo (b : list byte) : HandlerFunc :=
  fun _ => CallWrite b (fun _ => Return).

(** A run of [Write] calls on the capturing writer, one per slice, whatever
    each call returns. *)
Definition Write_each {W : Type} `{ResponseWriter W} (bs : list (list byte))
    (w : metaResponseWriter W) : metaResponseWriter W :=
  fold_left (fun w b => snd (metaResponseWriter_Write b w)) bs w.


(** The wording of the specification: the first comma-separated entry of a
    header value is what stands before its first comma, or all of it when it
    holds no comma. *)
Fixpoint first_entry (s : string) : string :=
  match s with
  | EmptyString => EmptyString
  | String c s' => if Ascii.eqb c "," then EmptyString else String c (first_entry s')
  end.

Fixpoint has_comma (s : string) : bool :=
  match s with
  | EmptyString => false
  | String c s' => Ascii.eqb c "," || has_comma s'
  end.

(** [starts_space sp2 sp3 s]: [s] starts with a white-space rune. *)
Definition starts_space (sp2 : ascii -> ascii -> bool)
    (sp3 : ascii -> ascii -> ascii -> bool) (s : string) : bool :=
  match s with
  | EmptyString => false
  | String c1 s1 =>
      Strings.asciiSpace c1
      || match s1 with
         | EmptyString => false
         | String c2 s2 =>
             sp2 c1 c2
             || match s2 with
                | EmptyString => false
                | String c3 _ => sp3 c1 c2 c3
                end
         end
  end.

(** White space at the start of [s], and at its end. *)
Definition leading_space (s : string) : bool :=
  starts_space Strings.space2 Strings.space3 s.

Definition trailing_space (s : string) : bool :=
  starts_space (fun c2 c1 => Strings.space2 c1 c2)
    (fun c3 c2 c1 => Strings.space3 c1 c2 c3) (String.rev s).

(** The slices a handler passes to [Write], in the order of the calls, when
    it runs from [w]. *)
Fixpoint writes_of {W : Type} `{ResponseWriter W} (p : Prog) (w : W)
  : list (list byte) :=
  match p with
  | Return => []
  | Panic _ => []
  | HeaderPut f k => writes_of k (Header_store (f (Header w)) w)
  | HeaderLook k => writes_of (k (Header w)) w
  | CallWriteHeader s k => writes_of k (WriteHeader s w)
  | CallWrite b k => let '(res, w') := Write b w in b :: writes_of (k res) w'
  end.


(** [no_WriteHeader p]: [p] makes no [WriteHeader] call. *)
Fixpoint no_WriteHeader (p : Prog) : Prop :=
  match p with
  | Return => True
  | Panic _ => True
  | HeaderPut _ k => no_WriteHeader k
  | HeaderLook k => forall h, no_WriteHeader (k h)
  | CallWriteHeader _ _ => False
  | CallWrite _ k => forall res, no_WriteHeader (k res)
  end.

(** Status codes a connection sends as the status line of the response
    when [WriteHeader] is called first. The codes below 200 are left out: the
    connection panics on a code outside 100..999 and sends the codes
    100..199, 101 apart, as interim responses. *)
Definition final_status (c : Z) : Prop := 200 <= c <= 999.

(** [polite p]: [p] uses the writer as the interface asks: at most one
    [WriteHeader] call, with a final status code, and no [Write] before
    it. *)
Fixpoint polite (p : Prog) : Prop :=
  match p with
  | Return => True
  | Panic _ => True
  | HeaderPut _ k => polite k
  | HeaderLook k => forall h, polite (k h)
  | CallWriteHeader s k => final_status s /\ no_WriteHeader k
  | CallWrite _ k => forall res, no_WriteHeader (k res)
  end.

(** How many line feeds a string holds. *)
Fixpoint count_nl (s : string) : nat :=
  match s with
  | EmptyString => 0%nat
  | String c s' => ((if Ascii.eqb c (ascii_of_N 10) then 1 else 0) + count_nl s')%nat
  end.

(** [n] spaces. *)
Fixpoint spaces (n : nat) : string :=
  match n with
  | O => EmptyString
  | S n' => String " " (spaces n')
  end.

(** * Properties *)

(** ** The capturing writer *)

(** Both branches of [Write] on the capturing writer, and the pair the
    wrapped writer returns. *)
Ltac Write_cases b w :=
  unfold metaResponseWriter_Write;
  destruct (status w =? 0); simpl;
  destruct (Write b (writer w)); reflexivity.

Section MetaResponseWriterFacts.

Context {W : Type} `{ResponseWriter W}.

Lemma Write_status (b : list byte) (w : metaResponseWriter W) :
  status (snd (metaResponseWriter_Write b w))
  = if status w =? 0 then Http.StatusOK else status w.
Proof.
  Write_cases b w.
Qed.

Lemma Write_length (b : list byte) (w : metaResponseWriter W) :
  length (snd (metaResponseWriter_Write b w)) = Z.of_nat (List.length b).
Proof.
  Write_cases b w.
Qed.

Lemma Write_writer (b : list byte) (w : metaResponseWriter W) :
  writer (snd (metaResponseWriter_Write b w)) = snd (Write b (writer w)).
Proof.
  Write_cases b w.
Qed.

Lemma Write_result (b : list byte) (w : metaResponseWriter W) :
  fst (metaResponseWriter_Write b w) = fst (Write b (writer w)).
Proof.
  Write_cases b w.
Qed.

(** A status other than 0 is out of reach of [Write]. *)
Lemma Write_keeps_status (b : list byte) (w : metaResponseWriter W) :
  status w <> 0 -> status (snd (metaResponseWriter_Write b w)) = status w.
Proof.
  intros Hs. rewrite Write_status.
  destruct (Z.eqb_spec (status w) 0); [contradiction | reflexivity].
Qed.

Lemma Write_status_nonzero (b : list byte) (w : metaResponseWriter W) :
  status (snd (metaResponseWriter_Write b w)) <> 0.
Proof.
  rewrite Write_status.
  destruct (Z.eqb_spec (status w) 0); [discriminate | assumption].
Qed.

Lemma Write_each_snoc (bs : list (list byte)) (b : list byte)
    (w : metaResponseWriter W) :
  Write_each (bs ++ [b]) w
  = snd (metaResponseWriter_Write b (Write_each bs w)).
Proof. unfold Write_each. rewrite fold_left_app. reflexivity. Qed.

Lemma Write_each_cons (b : list byte) (bs : list (list byte))
    (w : metaResponseWriter W) :
  Write_each (b :: bs) w
  = Write_each bs (snd (metaResponseWriter_Write b w)).
Proof. reflexivity. Qed.

Lemma Write_each_keeps_status (bs : list (list byte))
    (w : metaResponseWriter W) :
  status w <> 0 -> status (Write_each bs w) = status w.
Proof.
  revert w. induction bs as [|b bs IH]; intros w Hs; [reflexivity|].
  rewrite Write_each_cons, IH; rewrite Write_keeps_status; auto.
Qed.

(** Without a [WriteHeader] call the status is the zero value or 200. *)
Lemma Write_each_status (bs : list (list byte)) (w : metaResponseWriter W) :
  status w = 0 ->
  status (Write_each bs w) = if bs is [] then 0 else Http.StatusOK.
Proof.
  intros Hs. destruct bs as [|b bs]; [exact Hs|].
  rewrite Write_each_cons.
  rewrite Write_each_keeps_status by apply Write_status_nonzero.
  rewrite Write_status, Hs. reflexivity.
Qed.

End MetaResponseWriterFacts.

(** C9: a [Write] on the capturing writer returns the byte count and the
    error of the wrapped writer's [Write] unchanged, the wrapped writer is
    written exactly once with the same slice, and the handler that made the
    call goes on with that very result. *)
Theorem metaResponseWriter_Write_propagates :
  forall (W : Type) (RW : ResponseWriter W) (b : list byte)
         (w : metaResponseWriter W) (k : Z * Http.error -> Prog),
    fst (metaResponseWriter_Write b w) = fst (Write b (writer w))
    /\ writer (snd (metaResponseWriter_Write b w)) = snd (Write b (writer w))
    /\ run (CallWrite b k) w
       = run (k (fst (Write b (writer w)))) (snd (metaResponseWriter_Write b w)).
Proof.
  intros W RW b w k. split; [apply Write_result|].
  split; [apply Write_writer|].
  cbn [run Write metaResponseWriter_ResponseWriter].
  rewrite <- Write_result. destruct (metaResponseWriter_Write b w); reflexivity.
Qed.

(** C10: the length a [Write] on the capturing writer records is the length
    of the slice it was given, whatever the wrapped writer returns; on a
    connection that takes two bytes of a five-byte slice the call returns 2
    and an error, two bytes reach the client and the recorded length is 5. *)
Theorem metaResponseWriter_Write_length :
  (forall (W : Type) (RW : ResponseWriter W) (b : list byte)
          (w : metaResponseWriter W),
      length (snd (metaResponseWriter_Write b w)) = Z.of_nat (List.length b))
  /\ (let '(n, err, w') := metaResponseWriter_Write (body 5) (httpLog_mrw (fresh 2)) in
      n = 2 /\ err = Some "short write" /\ rec_body (writer w') = body 2
      /\ length w' = 5 /\ n < length w').
Proof.
  split; [intros; apply Write_length|].
  vm_compute. repeat split; reflexivity.
Qed.

(** C7: after any run of [Write] calls on a capturing writer that got no
    [WriteHeader] call, the status is 200 and the length is that of the last
    slice written; writes of 10 and then 3 bytes leave status 200 and
    length 3. *)
Theorem Write_each_last_length :
  (forall (W : Type) (RW : ResponseWriter W) (w : W)
          (bs : list (list byte)) (b : list byte),
      let m := Write_each (bs ++ [b]) (httpLog_mrw w) in
      status m = 200 /\ length m = Z.of_nat (List.length b))
  /\ (let m := Write_each [body 10; body 3] (httpLog_mrw (fresh 100)) in
      status m = 200 /\ length m = 3 /\ length m <> 10 + 3).
Proof.
  split.
  - intros W RW w bs b m. subst m. rewrite Write_each_snoc. split.
    + rewrite Write_status.
      rewrite (Write_each_status bs (httpLog_mrw w)) by reflexivity.
      destruct bs; reflexivity.
    + apply Write_length.
  - vm_compute. repeat split. discriminate.
Qed.

(** C6, as amended: after [WriteHeader(c)] with [c] other than 0, the
    captured status is [c] after every later [Write]. *)
Theorem WriteHeader_status_kept :
  forall (W : Type) (RW : ResponseWriter W) (c : Z)
         (w : metaResponseWriter W) (bs : list (list byte)),
    c <> 0 ->
    status (Write_each bs (metaResponseWriter_WriteHeader c w)) = c.
Proof.
  intros W RW c w bs Hc.
  rewrite Write_each_keeps_status; [reflexivity | exact Hc].
Qed.

Lemma WriteHeader_status_kept_witness :
  status (Write_each [body 10; body 3]
            (metaResponseWriter_WriteHeader 404 (httpLog_mrw (fresh 100))))
  = 404.
Proof.
  apply (WriteHeader_status_kept Recorder Recorder_ResponseWriter 404
           (httpLog_mrw (fresh 100)) [body 10; body 3]).
  discriminate.
Defined.

(** C6 as stated fails for the status 0: [WriteHeader(0)] and then a [Write]
    leave the status 200, not the 0 that was set. *)
Lemma WriteHeader_zero_overwritten :
  status (Write_each [body 3]
            (metaResponseWriter_WriteHeader 0 (httpLog_mrw (fresh 100))))
  = 200
  /\ status (Write_each [body 3]
               (metaResponseWriter_WriteHeader 0 (httpLog_mrw (fresh 100))))
     <> 0.
Proof. vm_compute. split; [reflexivity | discriminate]. Qed.

(** ** A handler run on the capturing writer *)

Section CapturedRun.

Context {W : Type} `{ResponseWriter W}.

(** The status a handler leaves is 0 exactly when it found 0 and made no
    [WriteHeader] or [Write] call, as long as it never passes 0 itself. *)
Lemma run_status_zero (p : Prog) :
  sends_nonzero p ->
  forall m : metaResponseWriter W,
    status (snd (run p m)) = 0 <-> status m = 0 /\ silent p m.
Proof.
  induction p as [| v | f k IH | k IH | s k IH | b k IH]; intros Hp m.
  - cbn. tauto.
  - cbn. tauto.
  - cbn [run silent]. rewrite (IH Hp). reflexivity.
  - cbn [run silent]. rewrite (IH _ (Hp _)). reflexivity.
  - destruct Hp as [Hs Hk]. cbn [run silent]. rewrite (IH Hk). cbn. tauto.
  - cbn [run silent Write metaResponseWriter_ResponseWriter].
    pose proof (Write_status_nonzero b m) as Hnz.
    destruct (metaResponseWriter_Write b m) as [res m'].
    rewrite (IH _ (Hp _)). cbn in Hnz. tauto.
Qed.

(** Once the status is not 0, no [Write] call finds it 0. *)
Lemma each_Write_nonzero (p : Prog) :
  sends_nonzero p ->
  forall m : metaResponseWriter W,
    status m <> 0 -> each_Write (fun m => status m <> 0) p m.
Proof.
  induction p as [| v | f k IH | k IH | s k IH | b k IH]; intros Hp m Hm.
  - exact I.
  - exact I.
  - cbn [each_Write]. apply IH; assumption.
  - cbn [each_Write]. apply IH; [apply Hp | assumption].
  - destruct Hp as [Hs Hk]. cbn [each_Write]. apply IH; assumption.
  - cbn [each_Write Write metaResponseWriter_ResponseWriter].
    split; [exact Hm|].
    pose proof (Write_status_nonzero b m) as Hnz.
    destruct (metaResponseWriter_Write b m) as [res m'].
    apply IH; [apply Hp | exact Hnz].
Qed.

End CapturedRun.

(** ** The access log *)

Lemma httpLog_unfold `{Clock} {W : Type} `{ResponseWriter W}
    (out : list string) (h : HandlerFunc) (env : Env) (w : W)
    (r : Http.Request) :
  httpLog out h env w r
  = (fst (run (h r) (httpLog_mrw w)),
     snd (run (h r) (httpLog_mrw w)),
     httpLog_deferred (start_time env) env r
       (snd (run (h r) (httpLog_mrw w))) out).
Proof.
  unfold httpLog, defer. destruct (run (h r) (httpLog_mrw w)); reflexivity.
Qed.

(** C1, as amended: for a handler that never passes 0 to [WriteHeader], the
    status the deferred function reads is 0 exactly when the handler made no
    [WriteHeader] and no [Write] call; a first [Write] with no [WriteHeader]
    before it sets the status to 200. *)
Theorem httpLog_status_zero_iff_silent :
  forall (C : Clock) (W : Type) (RW : ResponseWriter W) (out : list string)
         (h : HandlerFunc) (env : Env) (w : W) (r : Http.Request),
    sends_nonzero (h r) ->
    (status (snd (fst (httpLog out h env w r))) = 0
     <-> silent (h r) (httpLog_mrw w))
    /\ (forall b : list byte,
           status (snd (metaResponseWriter_Write b (httpLog_mrw w))) = 200).
Proof.
  intros C W RW out h env w r Hh. split.
  - rewrite httpLog_unfold. cbn [fst snd].
    rewrite (run_status_zero (h r) Hh). cbn. tauto.
  - intros b. rewrite Write_status. reflexivity.
Qed.

Lemma httpLog_status_zero_iff_silent_witness :
  status (snd (fst (httpLog [] (echo (body 5)) (sample_Env "") (fresh 100)
                      (sample_Request None)))) <> 0.
Proof.
  intros Hz.
  apply (httpLog_status_zero_iff_silent sample_Clock Recorder
           Recorder_ResponseWriter [] (echo (body 5)) (sample_Env "")
           (fresh 100) (sample_Request None)) in Hz.
  - exact Hz.
  - intros res. exact I.
Defined.

(** C1 as stated fails: a handler that returns without a [WriteHeader] or a
    [Write] call is logged with the status 0. *)
Lemma httpLog_status_zero_when_silent :
  status (snd (fst (httpLog [] (fun _ => Return) (sample_Env "") (fresh 100)
                      (sample_Request None)))) = 0.
Proof. reflexivity. Qed.

(** C8, as amended: in [httpLog] around [withAppHeaders c h], for a
    configured status [c] other than 0 and a handler [h] that never passes 0
    to [WriteHeader], every [Write] call on the capturing writer finds a
    status other than 0, so the branch that sets 200 is not taken. *)
Theorem withAppHeaders_Write_finds_status :
  forall (V : Version) (W : Type) (RW : ResponseWriter W) (c : Z)
         (h : HandlerFunc) (w : W) (r : Http.Request),
    c <> 0 ->
    sends_nonzero (h r) ->
    each_Write (fun m : metaResponseWriter W => status m <> 0)
      (withAppHeaders c h r) (httpLog_mrw w).
Proof.
  intros V W RW c h w r Hc Hh.
  unfold withAppHeaders. cbn [each_Write].
  apply each_Write_nonzero; [exact Hh | exact Hc].
Qed.

Lemma withAppHeaders_Write_finds_status_witness :
  each_Write (fun m : metaResponseWriter Recorder => status m <> 0)
    (@withAppHeaders sample_Version 200 (echo (body 5)) (sample_Request None))
    (httpLog_mrw (fresh 100)).
Proof.
  apply (withAppHeaders_Write_finds_status sample_Version Recorder
           Recorder_ResponseWriter 200 (echo (body 5)) (fresh 100)
           (sample_Request None)).
  - discriminate.
  - intros res. exact I.
Defined.

(** C8 as stated fails when the handler behind [withAppHeaders] calls
    [WriteHeader(0)] and then writes: the status 200 is out already, so the
    connection passes over the second call, but the capturing writer records
    the 0, and the [Write] finds the status 0 and takes the branch that sets
    200. *)
Lemma withAppHeaders_downstream_zero_Write_finds_zero :
  ~ each_Write (fun m : metaResponseWriter Recorder => status m <> 0)
      (@withAppHeaders sample_Version 200
         (fun r => CallWriteHeader 0 (echo (body 5) r))
         (sample_Request None))
      (httpLog_mrw (fresh 100)).
Proof. intros [Hw _]. apply Hw. reflexivity. Qed.

(** C3, as amended: [httpLog] prints exactly one line however the handler
    ends, by return or by panic, and hands on how it ended. *)
Theorem httpLog_logs_on_return_and_panic :
  forall (C : Clock) (W : Type) (RW : ResponseWriter W) (out : list string)
         (h : HandlerFunc) (env : Env) (w : W) (r : Http.Request),
    (exists line : string, snd (httpLog out h env w r) = (out ++ [line])%list)
    /\ fst (fst (httpLog out h env w r)) = fst (run (h r) (httpLog_mrw w))
    /\ forall v : string,
         exists line : string,
           httpLog out (fun _ => Panic v) env w r
           = (Panicked v, httpLog_mrw w, (out ++ [line])%list).
Proof.
  intros C W RW out h env w r. split; [|split].
  - rewrite httpLog_unfold. cbn [snd]. unfold httpLog_deferred, Fmt.Fprintf.
    destruct (negb _); eexists; reflexivity.
  - rewrite httpLog_unfold. reflexivity.
  - intros v. rewrite httpLog_unfold. cbn [run fst snd].
    unfold httpLog_deferred, Fmt.Fprintf.
    destruct (negb _); eexists; reflexivity.
Qed.

(** C3 as stated fails: for a handler that panics the line is printed all
    the same. *)
Lemma httpLog_panic_is_logged :
  fst (fst (httpLog [] (fun _ => Panic "boom") (sample_Env "") (fresh 100)
              (sample_Request None))) = Panicked "boom"
  /\ List.length (snd (httpLog [] (fun _ => Panic "boom") (sample_Env "")
                         (fresh 100) (sample_Request None))) = 1%nat
  /\ snd (httpLog [] (fun _ => Panic "boom") (sample_Env "") (fresh 100)
            (sample_Request None)) <> [].
Proof. vm_compute. repeat split; discriminate. Qed.


(** ** The forwarded address *)

Lemma Index_comma_cons (c : ascii) (s : string) :
  Strings.Index (String c s) ","
  = if Ascii.eqb c ","
    then 0
    else if Strings.Index s "," =? -1 then -1 else Strings.Index s "," + 1.
Proof.
  cbn [Strings.Index String.prefix].
  destruct (Ascii.eqb_spec c ",") as [->|Hc].
  - destruct (ascii_dec "," ",") as [_|Hne]; [|congruence].
    destruct s; reflexivity.
  - destruct (ascii_dec "," c) as [Heq|_]; [congruence|].
    reflexivity.
Qed.

Lemma Index_no_comma (s : string) :
  has_comma s = false -> Strings.Index s "," = -1.
Proof.
  induction s as [|c s IH]; intros Hs; [reflexivity|].
  cbn [has_comma] in Hs. apply orb_false_iff in Hs as [Hc Hs].
  rewrite Index_comma_cons, Hc, (IH Hs). reflexivity.
Qed.

Lemma Index_comma (s : string) :
  has_comma s = true ->
  Strings.Index s "," = Z.of_nat (String.length (first_entry s)).
Proof.
  induction s as [|c s IH]; intros Hs; [discriminate|].
  rewrite Index_comma_cons. cbn [has_comma first_entry] in *.
  destruct (Ascii.eqb c ","); [reflexivity|].
  cbn [orb] in Hs. rewrite (IH Hs). cbn [String.length].
  destruct (Z.eqb_spec (Z.of_nat (String.length (first_entry s))) (-1)); lia.
Qed.

Lemma slice_to_first_entry (s : string) :
  has_comma s = true ->
  Strings.slice_to s (Z.of_nat (String.length (first_entry s))) = first_entry s.
Proof.
  unfold Strings.slice_to. rewrite Nat2Z.id.
  induction s as [|c s IH]; intros Hs; [discriminate|].
  cbn [has_comma first_entry] in *.
  destruct (Ascii.eqb c ","); [reflexivity|].
  cbn [orb] in Hs. cbn [String.length String.substring].
  rewrite (IH Hs). reflexivity.
Qed.

Lemma httpLog_forwardedFor_comma (r : Http.Request) :
  let v := Http.Header_Get (Http.Request_Header r) "X-Forwarded-For" in
  v <> EmptyString -> has_comma v = true ->
  httpLog_forwardedFor r = Strings.TrimSpace (first_entry v).
Proof.
  intros v Hv Hc. unfold httpLog_forwardedFor. fold v.
  apply String.eqb_neq in Hv. rewrite Hv. cbn [negb].
  rewrite (Index_comma v Hc), (slice_to_first_entry v Hc).
  destruct (Z.eqb_spec (Z.of_nat (String.length (first_entry v))) (-1));
    [lia | reflexivity].
Qed.

(** C2, as amended: the forwarded-address field is "-" when the request has
    no [X-Forwarded-For] header or an empty one; when the header value holds
    a comma, it is the first comma-separated entry trimmed of surrounding
    white space; when the value holds no comma, it is the value as it stands.
    For the value "1.2.3.4, 5.6.7.8" the field is "1.2.3.4". *)
Theorem httpLog_forwardedFor_field :
  forall r : Http.Request,
    let v := Http.Header_Get (Http.Request_Header r) "X-Forwarded-For" in
    (Http.Request_Header r !! "X-Forwarded-For" = None ->
     httpLog_forwardedFor r = "-")
    /\ (v = EmptyString -> httpLog_forwardedFor r = "-")
    /\ (v <> EmptyString -> has_comma v = true ->
        httpLog_forwardedFor r = Strings.TrimSpace (first_entry v))
    /\ (v <> EmptyString -> has_comma v = false ->
        httpLog_forwardedFor r = v)
    /\ httpLog_forwardedFor (sample_Request (Some "1.2.3.4, 5.6.7.8"))
       = "1.2.3.4".
Proof.
  intros r v. unfold httpLog_forwardedFor. fold v.
  repeat split.
  - intros Hnone. unfold v, Http.Header_Get. rewrite Hnone. reflexivity.
  - intros ->. reflexivity.
  - intros Hv Hc. apply (httpLog_forwardedFor_comma r Hv Hc).
  - intros Hv Hc. apply String.eqb_neq in Hv. rewrite Hv. cbn [negb].
    rewrite (Index_no_comma v Hc). reflexivity.
Qed.

Lemma httpLog_forwardedFor_field_witness :
  httpLog_forwardedFor (sample_Request (Some " 1.2.3.4 , 5.6.7.8")) = "1.2.3.4"
  /\ httpLog_forwardedFor (sample_Request (Some "1.2.3.4")) = "1.2.3.4"
  /\ httpLog_forwardedFor (sample_Request None) = "-".
Proof.
  split; [|split].
  - destruct (httpLog_forwardedFor_field
                (sample_Request (Some " 1.2.3.4 , 5.6.7.8")))
      as (_ & _ & Hcomma & _).
    apply Hcomma; [discriminate | reflexivity].
  - destruct (httpLog_forwardedFor_field (sample_Request (Some "1.2.3.4")))
      as (_ & _ & _ & Hsole & _).
    apply Hsole; [discriminate | reflexivity].
  - destruct (httpLog_forwardedFor_field (sample_Request None))
      as (Hnone & _).
    apply Hnone. reflexivity.
Defined.

(** C2 as stated fails for a value with one entry and white space around
    it: the field is the value with the white space left in place. *)
Lemma httpLog_forwardedFor_sole_entry_untrimmed :
  httpLog_forwardedFor (sample_Request (Some " 1.2.3.4 ")) = " 1.2.3.4 "
  /\ httpLog_forwardedFor (sample_Request (Some " 1.2.3.4 "))
     <> Strings.TrimSpace (first_entry " 1.2.3.4 ").
Proof. vm_compute. split; [reflexivity | discriminate]. Qed.

(** ** The application headers *)

(** The capturing writer adds bookkeeping only: the wrapped writer ends as
    if the handler had run on it directly, and the handler ends the same
    way. *)
Lemma run_metaResponseWriter {W : Type} `{ResponseWriter W} (p : Prog) :
  forall m : metaResponseWriter W,
    fst (run p m) = fst (run p (writer m))
    /\ writer (snd (run p m)) = snd (run p (writer m)).
Proof.
  induction p as [| v | f k IH | k IH | s k IH | b k IH]; intros m.
  - split; reflexivity.
  - split; reflexivity.
  - cbn [run]. apply IH.
  - cbn [run]. apply IH.
  - cbn [run]. apply IH.
  - cbn [run Write metaResponseWriter_ResponseWriter].
    pose proof (Write_result b m) as Hres.
    pose proof (Write_writer b m) as Hwr.
    destruct (metaResponseWriter_Write b m) as [res m'].
    destruct (Write b (writer m)) as [res' w'].
    cbn [fst snd] in Hres, Hwr. subst res' w'. apply IH.
Qed.

(** What a [Recorder] has sent stays sent. *)
Lemma Recorder_sent_stays (p : Prog) :
  forall (w : Recorder) (x : Z * Http.Header),
    rec_sent w = Some x -> rec_sent (snd (run p w)) = Some x.
Proof.
  induction p as [| v | f k IH | k IH | s k IH | b k IH]; intros w x Hw.
  - exact Hw.
  - exact Hw.
  - cbn [run]. apply IH. exact Hw.
  - cbn [run]. apply IH. exact Hw.
  - cbn [run]. apply IH.
    cbn [WriteHeader Recorder_ResponseWriter]. unfold Recorder_WriteHeader.
    rewrite Hw. exact Hw.
  - cbn [run Write Recorder_ResponseWriter]. unfold Recorder_Write.
    apply IH. cbn [rec_sent]. unfold Recorder_WriteHeader.
    rewrite Hw. exact Hw.
Qed.




(** ** Further properties *)


(** The lines of two sample requests. With forwarding off, the request
    [GET / HTTP/1.1] for host
    [example.com] from [10.0.0.1:4321] with user agent [test-agent], and a
    handler that writes five bytes and sets no status, the line shows the
    status 200 and the length 5 and holds no forwarded address; with
    forwarding on and no [X-Forwarded-For] header, the field is "-". *)
Theorem httpLog_sample_lines :
  snd (httpLog [] (echo (body 5)) (sample_Env "") (fresh 100)
         (sample_Request None))
  = [ "t1234 example.com 10.0.0.1:4321 " +:+ dquote +:+ "GET / HTTP/1.1"
      +:+ dquote +:+ " 200 5 " +:+ dquote +:+ "test-agent" +:+ dquote
      +:+ " 234ns" +:+ newline ]
  /\ snd (httpLog [] (echo (body 5)) (sample_Env "1") (fresh 100)
            (sample_Request None))
     = [ "t1234 example.com 10.0.0.1:4321 - " +:+ dquote +:+ "GET / HTTP/1.1"
         +:+ dquote +:+ " 200 5 " +:+ dquote +:+ "test-agent" +:+ dquote
         +:+ " 234ns" +:+ newline ].
Proof. split; vm_compute; reflexivity. Qed.

(** ** White space around the forwarded address *)

Lemma append_cons (a : ascii) (s t : string) :
  String a s +:+ t = String a (s +:+ t).
Proof. reflexivity. Qed.

Lemma append_nil_l (s : string) : EmptyString +:+ s = s.
Proof. reflexivity. Qed.

Section Trim.

Variable sp2 : ascii -> ascii -> bool.
Variable sp3 : ascii -> ascii -> ascii -> bool.

Lemma trim_front_bounded (n : nat) :
  forall s, (String.length s <= n)%nat ->
    starts_space sp2 sp3 (Strings.trim_front sp2 sp3 s) = false
    /\ exists a, s = a +:+ Strings.trim_front sp2 sp3 s.
Proof.
  induction n as [|n IH]; intros s Hn.
  - destruct s; [split; [reflexivity | exists EmptyString; reflexivity] | cbn in Hn; lia].
  - destruct s as [|c1 s1]; [split; [reflexivity | exists EmptyString; reflexivity]|].
    cbn [Strings.trim_front]. cbn [String.length] in Hn.
    destruct (Strings.asciiSpace c1) eqn:E1.
    { destruct (IH s1) as [Hs [a Ha]]; [lia|]. split; [exact Hs|].
      exists (String c1 a). rewrite !append_cons; repeat f_equal; exact Ha. }
    destruct s1 as [|c2 s2];
      [split; [cbn; rewrite E1; reflexivity | exists EmptyString; reflexivity]|].
    cbn [String.length] in Hn.
    destruct (sp2 c1 c2) eqn:E2.
    { destruct (IH s2) as [Hs [a Ha]]; [lia|]. split; [exact Hs|].
      exists (String c1 (String c2 a)). rewrite !append_cons; repeat f_equal; exact Ha. }
    destruct s2 as [|c3 s3];
      [split; [cbn; rewrite E1, E2; reflexivity | exists EmptyString; reflexivity]|].
    cbn [String.length] in Hn.
    destruct (sp3 c1 c2 c3) eqn:E3.
    { destruct (IH s3) as [Hs [a Ha]]; [lia|]. split; [exact Hs|].
      exists (String c1 (String c2 (String c3 a))). rewrite !append_cons; repeat f_equal; exact Ha. }
    split; [cbn; rewrite E1, E2, E3; reflexivity | exists EmptyString; reflexivity].
Qed.

Lemma trim_front_no_space (s : string) :
  starts_space sp2 sp3 (Strings.trim_front sp2 sp3 s) = false.
Proof. apply (trim_front_bounded (String.length s)). lia. Qed.

Lemma trim_front_suffix (s : string) :
  exists a, s = a +:+ Strings.trim_front sp2 sp3 s.
Proof. apply (trim_front_bounded (String.length s)). lia. Qed.

Lemma starts_space_app (p q : string) :
  starts_space sp2 sp3 p = true -> starts_space sp2 sp3 (p +:+ q) = true.
Proof.
  destruct p as [|c1 [|c2 [|c3 p]]]; rewrite ?append_cons; cbn;
    intros Hp; try discriminate; try exact Hp.
  - rewrite orb_false_r in Hp. rewrite Hp. reflexivity.
  - rewrite orb_false_r in Hp.
    destruct (Strings.asciiSpace c1); [reflexivity|]. cbn in *.
    rewrite Hp. reflexivity.
Qed.

End Trim.

Lemma append_nil_r (s : string) : s +:+ EmptyString = s.
Proof.
  induction s as [|a s IH]; [reflexivity|].
  rewrite append_cons, IH. reflexivity.
Qed.

Lemma append_assoc (s1 s2 s3 : string) :
  (s1 +:+ s2) +:+ s3 = s1 +:+ (s2 +:+ s3).
Proof.
  induction s1 as [|a s1 IH]; [reflexivity|].
  rewrite !append_cons, IH. reflexivity.
Qed.

Lemma rev_app_rev_app (s1 : string) :
  forall s2 s3,
    String.rev_app (String.rev_app s1 s2) s3 = String.rev_app s2 (s1 +:+ s3).
Proof.
  induction s1 as [|a s1 IH]; intros s2 s3; [reflexivity|].
  cbn [String.rev_app]. rewrite IH. reflexivity.
Qed.

Lemma rev_involutive (s : string) : String.rev (String.rev s) = s.
Proof.
  unfold String.rev. rewrite rev_app_rev_app. cbn. apply append_nil_r.
Qed.

Lemma rev_app_append (s1 : string) :
  forall s2, String.rev_app s1 s2 = String.rev s1 +:+ s2.
Proof.
  unfold String.rev.
  induction s1 as [|a s1 IH]; intros s2; [reflexivity|].
  cbn [String.rev_app]. rewrite (IH (String a s2)), (IH (String a EmptyString)).
  rewrite append_assoc. reflexivity.
Qed.

Lemma rev_app_app (s1 : string) :
  forall s2 t,
    String.rev_app (s1 +:+ s2) t = String.rev_app s2 (String.rev_app s1 t).
Proof.
  induction s1 as [|a s1 IH]; intros s2 t; [reflexivity|].
  rewrite append_cons. cbn [String.rev_app]. apply IH.
Qed.

Lemma rev_append (s1 s2 : string) :
  String.rev (s1 +:+ s2) = String.rev s2 +:+ String.rev s1.
Proof.
  unfold String.rev at 1. rewrite rev_app_app, rev_app_append. reflexivity.
Qed.

Lemma TrimRight_prefix (s : string) :
  exists b, s = Strings.TrimRight s +:+ b.
Proof.
  unfold Strings.TrimRight.
  destruct (trim_front_suffix (fun c2 c1 => Strings.space2 c1 c2)
              (fun c3 c2 c1 => Strings.space3 c1 c2 c3) (String.rev s))
    as [a Ha].
  exists (String.rev a).
  rewrite <- rev_append, <- Ha, rev_involutive. reflexivity.
Qed.

Lemma TrimSpace_trimmed (s : string) :
  leading_space (Strings.TrimSpace s) = false
  /\ trailing_space (Strings.TrimSpace s) = false.
Proof.
  unfold Strings.TrimSpace. split.
  - destruct (leading_space (Strings.TrimRight (Strings.TrimLeft s))) eqn:E;
      [|reflexivity].
    destruct (TrimRight_prefix (Strings.TrimLeft s)) as [b Hb].
    apply (starts_space_app _ _ _ b) in E. rewrite <- Hb in E.
    unfold Strings.TrimLeft in E. rewrite trim_front_no_space in E.
    discriminate.
  - unfold trailing_space, Strings.TrimRight. rewrite rev_involutive.
    apply trim_front_no_space.
Qed.

(** X3: when the [X-Forwarded-For] value holds a comma, the forwarded
    address in the log line starts with no white space and ends with none. *)
Theorem httpLog_forwardedFor_trimmed :
  forall r : Http.Request,
    let v := Http.Header_Get (Http.Request_Header r) "X-Forwarded-For" in
    v <> EmptyString -> has_comma v = true ->
    leading_space (httpLog_forwardedFor r) = false
    /\ trailing_space (httpLog_forwardedFor r) = false.
Proof.
  intros r v Hv Hc. rewrite (httpLog_forwardedFor_comma r Hv Hc).
  apply TrimSpace_trimmed.
Qed.

Lemma httpLog_forwardedFor_trimmed_witness :
  leading_space
    (httpLog_forwardedFor (sample_Request (Some " 1.2.3.4 , 5.6.7.8"))) = false
  /\ trailing_space
       (httpLog_forwardedFor (sample_Request (Some " 1.2.3.4 , 5.6.7.8")))
     = false.
Proof.
  apply (httpLog_forwardedFor_trimmed
           (sample_Request (Some " 1.2.3.4 , 5.6.7.8"))).
  - discriminate.
  - reflexivity.
Defined.

(** ** The captured length and the bytes written *)

Lemma last_cons_or {A : Type} (x : A) (l : list A) :
  last (x :: l) = match last l with Some y => Some y | None => Some x end.
Proof.
  revert x. induction l as [|y l IH]; intros x; [reflexivity|].
  change (last (x :: y :: l)) with (last (y :: l)).
  rewrite IH. destruct (last l); reflexivity.
Qed.


(** The length a handler leaves is that of the last slice it wrote, or the
    one it found when it wrote none. *)
Lemma run_length {W : Type} `{ResponseWriter W} (p : Prog) :
  forall m : metaResponseWriter W,
    length (snd (run p m))
    = match last (writes_of p m) with
      | Some b => Z.of_nat (List.length b)
      | None => length m
      end.
Proof.
  induction p as [| v | f k IH | k IH | s k IH | b k IH]; intros m.
  - reflexivity.
  - reflexivity.
  - cbn [run writes_of]. rewrite IH. reflexivity.
  - cbn [run writes_of]. apply IH.
  - cbn [run writes_of]. rewrite IH. reflexivity.
  - cbn [run writes_of Write metaResponseWriter_ResponseWriter].
    pose proof (Write_length b m) as Hlen.
    destruct (metaResponseWriter_Write b m) as [res m'].
    cbn [snd] in Hlen. rewrite last_cons_or, IH, Hlen.
    destruct (last (writes_of (k res) m')); reflexivity.
Qed.



(** X2: the length [httpLog] logs is the length of the last slice the
    handler passed to [Write], whatever else the handler did and however the
    writes went, and 0 when the handler made no [Write] call. *)
Theorem httpLog_length_is_last_write :
  forall (C : Clock) (W : Type) (RW : ResponseWriter W) (out : list string)
         (h : HandlerFunc) (env : Env) (w : W) (r : Http.Request),
    length (snd (fst (httpLog out h env w r)))
    = match last (writes_of (h r) (httpLog_mrw w)) with
      | Some b => Z.of_nat (List.length b)
      | None => 0
      end.
Proof.
  intros C W RW out h env w r. rewrite httpLog_unfold. cbn [fst snd].
  apply run_length.
Qed.



(** ** The logged status and the status the client receives *)

(** Only [WriteHeader] changes a status other than 0. *)
Lemma run_no_WriteHeader_status {W : Type} `{ResponseWriter W} (p : Prog) :
  no_WriteHeader p ->
  forall m : metaResponseWriter W,
    status m <> 0 -> status (snd (run p m)) = status m.
Proof.
  induction p as [| v | f k IH | k IH | s k IH | b k IH]; intros Hp m Hm.
  - reflexivity.
  - reflexivity.
  - cbn [run]. rewrite IH; [reflexivity | exact Hp | exact Hm].
  - cbn [run]. apply IH; [apply Hp | exact Hm].
  - destruct Hp.
  - cbn [run Write metaResponseWriter_ResponseWriter].
    pose proof (Write_keeps_status b m Hm) as Hs.
    destruct (metaResponseWriter_Write b m) as [res m'].
    cbn [snd] in Hs. rewrite IH; [exact Hs | apply Hp | congruence].
Qed.

(** Once the status line is out, the rest of a handler that makes no further
    [WriteHeader] call leaves the log and the client in agreement. *)
Lemma run_sent_agrees (p : Prog) (m : metaResponseWriter Recorder)
    (hs : Http.Header) :
  no_WriteHeader p ->
  status m <> 0 ->
  rec_sent (writer m) = Some (status m, hs) ->
  rec_sent (writer (snd (run p m))) = Some (status (snd (run p m)), hs).
Proof.
  intros Hp Hm Hsent.
  rewrite (run_no_WriteHeader_status p Hp m Hm).
  destruct (run_metaResponseWriter p m) as [_ ->].
  apply Recorder_sent_stays. exact Hsent.
Qed.

Lemma run_polite_agrees (p : Prog) :
  polite p ->
  forall m : metaResponseWriter Recorder,
    status m = 0 ->
    rec_sent (writer m) = None ->
    match rec_sent (writer (snd (run p m))) with
    | Some (s, _) => status (snd (run p m)) = s
    | None => status (snd (run p m)) = 0
    end.
Proof.
  induction p as [| v | f k IH | k IH | s k IH | b k IH];
    intros Hp m Hm Hsent.
  - cbn [run snd]. rewrite Hsent. exact Hm.
  - cbn [run snd]. rewrite Hsent. exact Hm.
  - cbn [run]. apply IH; [exact Hp | exact Hm | exact Hsent].
  - cbn [run]. apply IH; [apply Hp | exact Hm | exact Hsent].
  - destruct Hp as [Hs Hk]. cbn [run].
    assert (Hs0 : s <> 0) by (unfold final_status in Hs; lia).
    rewrite (run_sent_agrees k (WriteHeader s m) (rec_header (writer m)));
      [reflexivity | exact Hk | exact Hs0 |].
    cbn [WriteHeader metaResponseWriter_ResponseWriter writer status
         metaResponseWriter_WriteHeader Recorder_ResponseWriter].
    unfold Recorder_WriteHeader. rewrite Hsent. reflexivity.
  - cbn [run Write metaResponseWriter_ResponseWriter].
    pose proof (Write_status b m) as Hst.
    pose proof (Write_writer b m) as Hwr.
    destruct (metaResponseWriter_Write b m) as [res m'].
    cbn [snd] in Hst, Hwr. rewrite Hm in Hst. cbn in Hst.
    rewrite (run_sent_agrees (k res) m' (rec_header (writer m)));
      [reflexivity | apply Hp | rewrite Hst; discriminate |].
    rewrite Hwr, Hst.
    cbn [Write Recorder_ResponseWriter snd Recorder_Write rec_sent].
    unfold Recorder_WriteHeader. rewrite Hsent. reflexivity.
Qed.

(** X5: for a handler that makes at most one [WriteHeader] call, with a
    final status code (200..999) and before any [Write], the status [httpLog]
    logs is the status the connection has sent when the handler ends; when
    the handler sent nothing the logged status is 0. *)
Theorem httpLog_status_is_sent_status :
  forall (C : Clock) (out : list string) (h : HandlerFunc) (env : Env)
         (w : Recorder) (r : Http.Request),
    polite (h r) ->
    rec_sent w = None ->
    let m := snd (fst (httpLog out h env w r)) in
    match rec_sent (writer m) with
    | Some (s, _) => status m = s
    | None => status m = 0
    end.
Proof.
  intros C out h env w r Hp Hw m. subst m.
  rewrite httpLog_unfold. cbn [fst snd].
  apply run_polite_agrees; [exact Hp | reflexivity | exact Hw].
Qed.

Lemma httpLog_status_is_sent_status_witness :
  let m := snd (fst (httpLog []
                       (fun r => CallWriteHeader 404 (echo (body 5) r))
                       (sample_Env "") (fresh 100) (sample_Request None))) in
  match rec_sent (writer m) with
  | Some (s, _) => status m = s
  | None => status m = 0
  end.
Proof.
  apply (httpLog_status_is_sent_status sample_Clock []
           (fun r => CallWriteHeader 404 (echo (body 5) r))
           (sample_Env "") (fresh 100) (sample_Request None)).
  - split; [unfold final_status; lia | intros res; exact I].
  - reflexivity.
Defined.

(** The capturing writer right after the three calls of [withAppHeaders]. *)
Lemma withAppHeaders_sent `{Version} (c : Z) (h : HandlerFunc)
    (w : Recorder) (r : Http.Request) :
  rec_sent w = None ->
  exists (m : metaResponseWriter Recorder) (hs : Http.Header),
    run (withAppHeaders c h r) (httpLog_mrw w) = run (h r) m
    /\ status m = c
    /\ rec_sent (writer m) = Some (c, hs).
Proof.
  intros Hw. unfold withAppHeaders. cbn [run].
  eexists. eexists. split; [reflexivity|]. split; [reflexivity|].
  cbn [WriteHeader Header Header_store metaResponseWriter_ResponseWriter
       metaResponseWriter_WriteHeader metaResponseWriter_Header_store
       metaResponseWriter_Header Recorder_ResponseWriter writer httpLog_mrw].
  unfold Recorder_WriteHeader. cbn [rec_sent rec_header]. rewrite Hw.
  reflexivity.
Qed.

(** X6: in [httpLog] around [withAppHeaders c h], with a final status code
    [c] (200..999) and a handler [h] that makes no [WriteHeader] call, the
    logged status is [c] and the client received the status [c]. *)
Theorem httpLog_withAppHeaders_status :
  forall (V : Version) (C : Clock) (out : list string) (env : Env)
         (w : Recorder) (r : Http.Request) (c : Z) (h : HandlerFunc),
    final_status c ->
    no_WriteHeader (h r) ->
    rec_sent w = None ->
    let m := snd (fst (httpLog out (withAppHeaders c h) env w r)) in
    status m = c
    /\ exists hs : Http.Header, rec_sent (writer m) = Some (c, hs).
Proof.
  intros V C out env w r c h Hfin Hh Hw m. subst m.
  assert (Hc : c <> 0) by (unfold final_status in Hfin; lia).
  rewrite httpLog_unfold. cbn [fst snd].
  destruct (withAppHeaders_sent c h w r Hw) as (m & hs & -> & Hst & Hsent).
  split.
  - rewrite run_no_WriteHeader_status; [exact Hst | exact Hh | congruence].
  - exists hs. rewrite <- Hst in Hsent.
    rewrite (run_sent_agrees (h r) m hs Hh); [| congruence | exact Hsent].
    rewrite run_no_WriteHeader_status; [congruence | exact Hh | congruence].
Qed.

Lemma httpLog_withAppHeaders_status_witness :
  let m := snd (fst (httpLog [] (@withAppHeaders sample_Version 201
                                   (echo (body 5)))
                       (sample_Env "") (fresh 100) (sample_Request None))) in
  status m = 201
  /\ exists hs : Http.Header, rec_sent (writer m) = Some (201, hs).
Proof.
  apply (httpLog_withAppHeaders_status sample_Version sample_Clock []
           (sample_Env "") (fresh 100) (sample_Request None) 201
           (echo (body 5))).
  - unfold final_status. lia.
  - intros res. exact I.
  - reflexivity.
Defined.

(** X7: in [httpLog] around [withAppHeaders c h], with a final status code
    [c] (200..999), when [h] calls [WriteHeader(s)] itself, with [s] other
    than 0, the log shows [s] while the client received [c]: the capturing
    writer records every [WriteHeader] call and the connection, with its
    status line out, passes over the later one. *)
Theorem httpLog_logs_last_WriteHeader :
  forall (V : Version) (C : Clock) (out : list string) (env : Env)
         (w : Recorder) (r : Http.Request) (c s : Z) (k : HandlerFunc),
    final_status c ->
    s <> 0 ->
    no_WriteHeader (k r) ->
    rec_sent w = None ->
    let m :=
      snd (fst (httpLog out
                  (withAppHeaders c (fun r' => CallWriteHeader s (k r')))
                  env w r)) in
    status m = s
    /\ exists hs : Http.Header, rec_sent (writer m) = Some (c, hs).
Proof.
  intros V C out env w r c s k Hfin Hs Hk Hw m. subst m.
  rewrite httpLog_unfold. cbn [fst snd].
  destruct (withAppHeaders_sent c (fun r' => CallWriteHeader s (k r')) w r Hw)
    as (m & hs & -> & Hst & Hsent).
  cbn [run]. split.
  - rewrite run_no_WriteHeader_status; [reflexivity | exact Hk | exact Hs].
  - exists hs. destruct (run_metaResponseWriter (k r) (WriteHeader s m)) as [_ ->].
    apply Recorder_sent_stays.
    cbn [WriteHeader metaResponseWriter_ResponseWriter writer
         metaResponseWriter_WriteHeader Recorder_ResponseWriter].
    unfold Recorder_WriteHeader. rewrite Hsent. exact Hsent.
Qed.

Lemma httpLog_logs_last_WriteHeader_witness :
  let m :=
    snd (fst (httpLog []
                (@withAppHeaders sample_Version 200
                   (fun r' => CallWriteHeader 404 (echo (body 5) r')))
                (sample_Env "") (fresh 100) (sample_Request None))) in
  status m = 404
  /\ exists hs : Http.Header, rec_sent (writer m) = Some (200, hs).
Proof.
  apply (httpLog_logs_last_WriteHeader sample_Version sample_Clock []
           (sample_Env "") (fresh 100) (sample_Request None) 200 404
           (echo (body 5))).
  - unfold final_status. lia.
  - discriminate.
  - intros res. exact I.
  - reflexivity.
Defined.

(** ** Line feeds in the log line *)

Lemma count_nl_app (a b : string) :
  count_nl (a +:+ b) = (count_nl a + count_nl b)%nat.
Proof.
  induction a as [|c a IH]; [reflexivity|].
  rewrite append_cons. cbn [count_nl]. rewrite IH. lia.
Qed.

Lemma count_nl_uint (d : Decimal.uint) :
  count_nl (NilEmpty.string_of_uint d) = 0%nat.
Proof. induction d; cbn [NilEmpty.string_of_uint count_nl]; auto. Qed.

Lemma count_nl_decimal (n : Z) : count_nl (Fmt.decimal n) = 0%nat.
Proof.
  unfold Fmt.decimal, NilZero.string_of_int, NilZero.string_of_uint.
  destruct (Z.to_int n) as [d|d]; destruct d;
    cbn [count_nl NilEmpty.string_of_uint]; rewrite ?count_nl_uint;
    reflexivity.
Qed.

Lemma Sprintf_httpLogFormat (date host remote method path proto agent dur : string)
    (st len : Z) :
  Fmt.Sprintf httpLogFormat
    [Fmt.Str date; Fmt.Str host; Fmt.Str remote; Fmt.Str method; Fmt.Str path;
     Fmt.Str proto; Fmt.Int st; Fmt.Int len; Fmt.Str agent; Fmt.Stringer dur]
  = date +:+ " " +:+ host +:+ " " +:+ remote +:+ " " +:+ dquote +:+ method
    +:+ " " +:+ path +:+ " " +:+ proto +:+ dquote +:+ " " +:+ Fmt.decimal st
    +:+ " " +:+ Fmt.decimal len +:+ " " +:+ dquote +:+ agent +:+ dquote
    +:+ " " +:+ dur +:+ newline.
Proof. reflexivity. Qed.

Lemma Sprintf_httpLogFormatWithForward
    (date host remote fwd method path proto agent dur : string) (st len : Z) :
  Fmt.Sprintf httpLogFormatWithForward
    [Fmt.Str date; Fmt.Str host; Fmt.Str remote; Fmt.Str fwd; Fmt.Str method;
     Fmt.Str path; Fmt.Str proto; Fmt.Int st; Fmt.Int len; Fmt.Str agent;
     Fmt.Stringer dur]
  = date +:+ " " +:+ host +:+ " " +:+ remote +:+ " " +:+ fwd +:+ " "
    +:+ dquote +:+ method
    +:+ " " +:+ path +:+ " " +:+ proto +:+ dquote +:+ " " +:+ Fmt.decimal st
    +:+ " " +:+ Fmt.decimal len +:+ " " +:+ dquote +:+ agent +:+ dquote
    +:+ " " +:+ dur +:+ newline.
Proof. reflexivity. Qed.

Lemma count_nl_space : count_nl " " = 0%nat.
Proof. reflexivity. Qed.
Lemma count_nl_dquote : count_nl dquote = 0%nat.
Proof. reflexivity. Qed.
Lemma count_nl_newline : count_nl newline = 1%nat.
Proof. reflexivity. Qed.

(** X8: the fields of the log line are printed as they are: the buffer
    [httpLog] writes holds one line feed, the one that ends it, plus every
    line feed that the formatted time, the host, the remote address, the
    forwarded address (when it is logged), the method, the path, the
    protocol, the user agent and the duration hold. It is one line exactly
    when none of them holds a line feed. *)
Theorem httpLog_line_newlines :
  forall (C : Clock) (W : Type) (RW : ResponseWriter W) (out : list string)
         (h : HandlerFunc) (env : Env) (w : W) (r : Http.Request),
  exists line : string,
    snd (httpLog out h env w r) = (out ++ [line])%list
    /\ count_nl line
       = (1 + count_nl (Time_Format (end_time env) httpLogDateFormat)
          + count_nl (Http.Host r) + count_nl (Http.RemoteAddr r)
          + (if String.eqb (Getenv env httpLogEnvForwardedFor) EmptyString
             then 0 else count_nl (httpLog_forwardedFor r))
          + count_nl (Http.Method r) + count_nl (Http.URL_Path r)
          + count_nl (Http.Proto r) + count_nl (Http.UserAgent r)
          + count_nl (Duration_String
                        (Time_Sub (end_time env) (start_time env))))%nat.
Proof.
  intros C W RW out h env w r. rewrite httpLog_unfold. cbn [fst snd].
  unfold httpLog_deferred, Fmt.Fprintf.
  destruct (String.eqb (Getenv env httpLogEnvForwardedFor) EmptyString);
    cbn [negb]; eexists; (split; [reflexivity|]).
  - rewrite Sprintf_httpLogFormat, !count_nl_app, !count_nl_decimal,
      !count_nl_space, !count_nl_dquote, count_nl_newline. lia.
  - rewrite Sprintf_httpLogFormatWithForward, !count_nl_app,
      !count_nl_decimal, !count_nl_space, !count_nl_dquote, count_nl_newline.
    lia.
Qed.

(** ** Headers and calls that leave the capture alone *)

(** X9: [withAppHeaders] touches the two application headers only: on a
    writer whose header map reads back what is stored in it, every other
    header is, when the status is written and [h] is called, what it was
    before. *)
Theorem withAppHeaders_keeps_other_headers :
  forall (V : Version) (W : Type) (RW : ResponseWriter W) (c : Z)
         (h : HandlerFunc) (r : Http.Request) (w : W),
    HeaderLaw W ->
    exists w2 : W,
      run (withAppHeaders c h r) w = run (h r) (WriteHeader c w2)
      /\ forall key : string,
           key <> httpHeaderAppName ->
           key <> httpHeaderAppVersion ->
           Header w2 !! key = Header w !! key.
Proof.
  intros V W RW c h r w Hlaw.
  set (w1 := Header_store
               (Http.Header_Set httpHeaderAppName version_Name (Header w)) w).
  exists (Header_store
            (Http.Header_Set httpHeaderAppVersion version_Version (Header w1))
            w1).
  split; [reflexivity|].
  intros key Hn Hv. rewrite Header_Header_store. unfold w1.
  rewrite Header_Header_store. unfold Http.Header_Set.
  rewrite !lookup_insert_ne by congruence. reflexivity.
Qed.

Lemma withAppHeaders_keeps_other_headers_witness :
  exists w2 : Recorder,
    run (@withAppHeaders sample_Version 200 (echo (body 5))
           (sample_Request None))
        (Header_store {[ "Content-Type" := ["text/plain"] ]} (fresh 100))
    = run (echo (body 5) (sample_Request None)) (WriteHeader 200 w2)
    /\ forall key : string,
         key <> httpHeaderAppName ->
         key <> httpHeaderAppVersion ->
         Header w2 !! key
         = Header (Header_store {[ "Content-Type" := ["text/plain"] ]}
                     (fresh 100)) !! key.
Proof.
  apply (withAppHeaders_keeps_other_headers sample_Version Recorder
           Recorder_ResponseWriter 200 (echo (body 5)) (sample_Request None)
           (Header_store {[ "Content-Type" := ["text/plain"] ]} (fresh 100))).
  exact Recorder_HeaderLaw.
Defined.

Lemma run_silent {W : Type} `{ResponseWriter W} (p : Prog) :
  forall m : metaResponseWriter W,
    silent p m ->
    status (snd (run p m)) = status m /\ length (snd (run p m)) = length m.
Proof.
  induction p as [| v | f k IH | k IH | s k IH | b k IH]; intros m Hp.
  - split; reflexivity.
  - split; reflexivity.
  - cbn [run silent] in *. destruct (IH _ Hp) as [-> ->]. split; reflexivity.
  - cbn [run silent] in *. apply IH. exact Hp.
  - destruct Hp.
  - destruct Hp.
Qed.

(** X10: a handler that ends, by return or by panic, after work on the
    header map only leaves the captured status and length as [httpLog] set
    them up: both are logged as 0. *)
Theorem httpLog_silent_logs_zero :
  forall (C : Clock) (W : Type) (RW : ResponseWriter W) (out : list string)
         (h : HandlerFunc) (env : Env) (w : W) (r : Http.Request),
    silent (h r) (httpLog_mrw w) ->
    status (snd (fst (httpLog out h env w r))) = 0
    /\ length (snd (fst (httpLog out h env w r))) = 0.
Proof.
  intros C W RW out h env w r Hs. rewrite httpLog_unfold. cbn [fst snd].
  apply (run_silent (h r) (httpLog_mrw w) Hs).
Qed.

Lemma httpLog_silent_logs_zero_witness :
  status (snd (fst (httpLog []
                      (fun _ => HeaderPut (Http.Header_Set "X-Debug" "1")
                                  (Panic "boom"))
                      (sample_Env "") (fresh 100) (sample_Request None)))) = 0
  /\ length (snd (fst (httpLog []
                         (fun _ => HeaderPut (Http.Header_Set "X-Debug" "1")
                                     (Panic "boom"))
                         (sample_Env "") (fresh 100) (sample_Request None))))
     = 0.
Proof.
  apply (httpLog_silent_logs_zero sample_Clock Recorder
           Recorder_ResponseWriter []
           (fun _ => HeaderPut (Http.Header_Set "X-Debug" "1") (Panic "boom"))
           (sample_Env "") (fresh 100) (sample_Request None)).
  exact I.
Defined.

(** ** The shape of the forwarded address *)

Lemma has_comma_app (a b : string) :
  has_comma (a +:+ b) = has_comma a || has_comma b.
Proof.
  induction a as [|c a IH]; [reflexivity|].
  rewrite append_cons. cbn [has_comma]. rewrite IH, orb_assoc. reflexivity.
Qed.

Lemma has_comma_first_entry (s : string) : has_comma (first_entry s) = false.
Proof.
  induction s as [|c s IH]; [reflexivity|].
  cbn [first_entry]. destruct (Ascii.eqb c ",") eqn:Hc; [reflexivity|].
  cbn [has_comma]. rewrite Hc, IH. reflexivity.
Qed.

Lemma has_comma_TrimSpace (s : string) :
  has_comma s = false -> has_comma (Strings.TrimSpace s) = false.
Proof.
  intros Hs. unfold Strings.TrimSpace.
  destruct (trim_front_suffix Strings.space2 Strings.space3 s) as [a Ha].
  fold (Strings.TrimLeft s) in Ha.
  destruct (TrimRight_prefix (Strings.TrimLeft s)) as [b Hb].
  rewrite Ha, has_comma_app in Hs. apply orb_false_iff in Hs as [_ Hs].
  rewrite Hb, has_comma_app in Hs. apply orb_false_iff in Hs as [Hs _].
  exact Hs.
Qed.

(** X11: the forwarded address [httpLog] prints never holds a comma,
    whatever the [X-Forwarded-For] header holds. *)
Theorem httpLog_forwardedFor_no_comma :
  forall r : Http.Request, has_comma (httpLog_forwardedFor r) = false.
Proof.
  intros r. unfold httpLog_forwardedFor.
  set (v := Http.Header_Get (Http.Request_Header r) "X-Forwarded-For").
  destruct (String.eqb v EmptyString); cbn [negb]; [reflexivity|].
  destruct (has_comma v) eqn:Hc.
  - rewrite (Index_comma v Hc), (slice_to_first_entry v Hc).
    destruct (Z.eqb_spec (Z.of_nat (String.length (first_entry v))) (-1));
      [lia|].
    cbn [negb]. apply has_comma_TrimSpace, has_comma_first_entry.
  - rewrite (Index_no_comma v Hc). exact Hc.
Qed.

Lemma TrimSpace_spaces (n : nat) : Strings.TrimSpace (spaces n) = EmptyString.
Proof.
  unfold Strings.TrimSpace, Strings.TrimLeft.
  assert (Hl : Strings.trim_front Strings.space2 Strings.space3 (spaces n)
               = EmptyString)
    by (induction n as [|n IH]; [reflexivity | exact IH]).
  rewrite Hl. reflexivity.
Qed.

Lemma first_entry_spaces (n : nat) (rest : string) :
  first_entry (spaces n +:+ "," +:+ rest) = spaces n.
Proof.
  induction n as [|n IH]; [reflexivity|].
  cbn [spaces]. rewrite append_cons. cbn [first_entry].
  change (Ascii.eqb " " ",") with false. cbn iota. rewrite IH. reflexivity.
Qed.

(** X12: when the [X-Forwarded-For] value starts with a comma, or with
    spaces and then a comma, the forwarded address is the empty string, not
    the placeholder "-". *)
Theorem httpLog_forwardedFor_blank_entry :
  forall (r : Http.Request) (n : nat) (rest : string),
    Http.Header_Get (Http.Request_Header r) "X-Forwarded-For"
    = spaces n +:+ "," +:+ rest ->
    httpLog_forwardedFor r = EmptyString.
Proof.
  intros r n rest Hv.
  assert (Hc : has_comma (spaces n +:+ "," +:+ rest) = true).
  { rewrite has_comma_app. apply orb_true_iff. right. reflexivity. }
  assert (Hne : spaces n +:+ "," +:+ rest <> EmptyString).
  { intros He. rewrite He in Hc. discriminate. }
  rewrite <- Hv in Hc, Hne.
  rewrite (httpLog_forwardedFor_comma r Hne Hc), Hv, first_entry_spaces.
  apply TrimSpace_spaces.
Qed.

Lemma httpLog_forwardedFor_blank_entry_witness :
  httpLog_forwardedFor (sample_Request (Some "  , 5.6.7.8")) = EmptyString.
Proof.
  apply (httpLog_forwardedFor_blank_entry
           (sample_Request (Some "  , 5.6.7.8")) 2 " 5.6.7.8").
  reflexivity.
Defined.

(** X13: when the request carries several [X-Forwarded-For] values, the
    forwarded address comes from the first one alone: two requests whose
    first values are equal get the same forwarded address. *)
Theorem httpLog_forwardedFor_first_value :
  forall (r1 r2 : Http.Request) (v : string) (more1 more2 : list string),
    Http.Request_Header r1 !! "X-Forwarded-For" = Some (v :: more1) ->
    Http.Request_Header r2 !! "X-Forwarded-For" = Some (v :: more2) ->
    httpLog_forwardedFor r1 = httpLog_forwardedFor r2.
Proof.
  intros r1 r2 v more1 more2 H1 H2.
  unfold httpLog_forwardedFor, Http.Header_Get. rewrite H1, H2. reflexivity.
Qed.

Lemma httpLog_forwardedFor_first_value_witness :
  httpLog_forwardedFor
    {| Http.Method := "GET"; Http.URL_Path := "/"; Http.Proto := "HTTP/1.1";
       Http.Host := "example.com"; Http.RemoteAddr := "10.0.0.1:4321";
       Http.Request_Header :=
         {[ "X-Forwarded-For" := ["1.2.3.4"; "9.9.9.9"] ]} |}
  = httpLog_forwardedFor (sample_Request (Some "1.2.3.4")).
Proof.
  apply (httpLog_forwardedFor_first_value
           {| Http.Method := "GET"; Http.URL_Path := "/";
              Http.Proto := "HTTP/1.1"; Http.Host := "example.com";
              Http.RemoteAddr := "10.0.0.1:4321";
              Http.Request_Header :=
                {[ "X-Forwarded-For" := ["1.2.3.4"; "9.9.9.9"] ]} |}
           (sample_Request (Some "1.2.3.4")) "1.2.3.4" ["9.9.9.9"] []).
  - reflexivity.
  - reflexivity.
Defined.
